(** * The hand-weights heuristic of [weights_detection.py]

    [detect_weights] takes a rolling history of frames, each frame holding
    the 2D positions of the left wrist, right wrist, left shoulder and right
    shoulder, and answers whether the subject seems to hold weights.

    Coordinates are Python floats, that is IEEE 754 binary64 numbers; they
    are modelled by Rocq's primitive [float], whose operations round exactly
    as the machine does.  The sums inside [np.var], [np.linalg.norm] and
    [.sum()] are written in the order NumPy adds: one row after the other
    along the slow axis, by blocks with eight accumulators along the fast
    axis.  Entries that are Python integers are outside the model.

    Python raises exceptions; the body of the [try] block is written in an
    error monad and the handler is explicit.  [print] is modelled by a
    console that is threaded through the call. *)

From Stdlib Require Import String.
From Stdlib Require Uint63.
From Stdlib Require Import ZArith QArith Floats Lia List Bool Arith Permutation.
Import ListNotations.
Open Scope float_scope.

(** ** Exceptions and the error monad *)

Inductive exn : Type :=
| TypeError
| ValueError
| IndexError.

Inductive result (A : Type) : Type :=
| Ok (a : A)
| Raise (e : exn).

Arguments Ok {A} a.
Arguments Raise {A} e.

Definition bind {A B : Type} (m : result A) (k : A -> result B) : result B :=
  match m with
  | Ok a => k a
  | Raise e => Raise e
  end.

Notation "x <- m ;; k" := (bind m (fun x => k))
  (at level 61, m at next level, right associativity).

(** ** Python values reaching the function *)

(** An entry of a frame: a float, or something that is not a number. *)
Inductive scalar : Type :=
| Num (x : float)
| Txt (s : string).

Definition point : Type := list scalar.
Definition frame : Type := list point.

(** The argument [wrist_history_xy]: [None], a sized sequence of frames (the
    annotated [deque]), or an object without [__len__] such as a number. *)
Inductive pyobj : Type :=
| PyNone
| PyFloat (x : float)
| PySeq (items : list frame).

(** What [print] has written so far: one entry per debug line, tagged with
    the exception it reports. *)
Definition console : Type := list exn.

(** ** The NumPy operations used *)

Definition is_num (s : scalar) : bool :=
  match s with
  | Num _ => true
  | Txt _ => false
  end.

Definition value (s : scalar) : float :=
  match s with
  | Num x => x
  | Txt _ => 0
  end.

(** A stacked array of shape [T, dim1, dim2].  [is_float] tells whether its
    element type is [float64]; an array that holds a string has a string
    element type, and only its shape matters since arithmetic on it raises. *)
Record ndarray : Type := mk_ndarray {
  is_float : bool;
  dim1 : nat;
  dim2 : nat;
  data : list (list (list float))
}.

(** Shape of one frame as an array; [None] when the rows differ in length. *)
Definition frame_shape (f : frame) : option (nat * nat) :=
  match f with
  | [] => Some (0%nat, 0%nat)
  | p :: ps =>
      if forallb (fun q => Nat.eqb (length q) (length p)) ps
      then Some (length f, length p)
      else None
  end.

Definition has_shape (sh : nat * nat) (f : frame) : bool :=
  match frame_shape f with
  | Some (n, k) => Nat.eqb n (fst sh) && Nat.eqb k (snd sh)
  | None => false
  end.

(** [np.stack(frames, axis=0)]: all frames must be arrays of one shape. *)
Definition np_stack (fs : list frame) : result ndarray :=
  match fs with
  | [] => Raise ValueError
  | f :: rest =>
      match frame_shape f with
      | None => Raise ValueError
      | Some sh =>
          if forallb (has_shape sh) rest
          then Ok {| is_float := forallb (forallb (forallb is_num)) fs;
                     dim1 := fst sh;
                     dim2 := snd sh;
                     data := map (map (map value)) fs |}
          else Raise ValueError
      end
  end.

(** [W[:, j, :]] *)
Definition joint (j : nat) (W : ndarray) : result (list (list float)) :=
  if Nat.ltb j (dim1 W)
  then Ok (map (fun f => nth j f []) (data W))
  else Raise IndexError.

(** [X[:, c]] *)
Definition column (c : nat) (X : list (list float)) : list float :=
  map (fun r => nth c r 0) X.

Definition take_column (c : nat) (W : ndarray) (X : list (list float))
  : result (list float) :=
  if Nat.ltb c (dim2 W) then Ok (column c X) else Raise IndexError.

(** Arithmetic needs numbers: on a string array NumPy raises. *)
Definition require_float (W : ndarray) : result unit :=
  if is_float W then Ok tt else Raise TypeError.

Fixpoint zip_with {A B C : Type} (f : A -> B -> C) (l : list A) (m : list B)
  : list C :=
  match l, m with
  | a :: l', b :: m' => f a b :: zip_with f l' m'
  | _, _ => []
  end.

(** *** Sums

    [np.add.reduce] starts from the identity of the addition, a zero, which
    adds exactly to every value. *)

(** Along the slow axis (axis 0 of an array of shape [T, k]) the rows are
    added one after the other. *)
Definition add_reduce_axis0 (col : list float) : float :=
  fold_left PrimFloat.add col neg_zero.

(** Along the fast axis NumPy sums by blocks.  Fewer than eight items are
    added in order.  Otherwise eight accumulators take the first eight
    items, each full group of eight that follows is added to them
    item by item, the accumulators are combined as a balanced tree, and the
    items left over are added in order. *)
Fixpoint unrolled (groups : nat) (r rest : list float)
  : list float * list float :=
  match groups with
  | O => (r, rest)
  | S g => unrolled g (zip_with PrimFloat.add r (firstn 8 rest)) (skipn 8 rest)
  end.

Definition combine8 (r : list float) : float :=
  let g := fun i => nth i r neg_zero in
  ((g 0%nat + g 1%nat) + (g 2%nat + g 3%nat))
  + ((g 4%nat + g 5%nat) + (g 6%nat + g 7%nat)).

Definition block_sum (a : list float) : float :=
  if Nat.ltb (length a) 8
  then fold_left PrimFloat.add a neg_zero
  else
    let '(r, rest) :=
      unrolled (length a / 8 - 1) (firstn 8 a) (skipn 8 a) in
    fold_left PrimFloat.add rest (combine8 r).

(** More than 128 items are split in two parts, the first a multiple of
    eight, and the sums of the parts are added.  [fuel] bounds the depth of
    the splitting; the length of the list is always enough. *)
Fixpoint pairwise_sum (fuel : nat) (a : list float) : float :=
  match fuel with
  | O => block_sum a
  | S fuel' =>
      if Nat.leb (length a) 128
      then block_sum a
      else
        let n2 := (length a / 2 - (length a / 2) mod 8)%nat in
        pairwise_sum fuel' (firstn n2 a) + pairwise_sum fuel' (skipn n2 a)
  end.

(** [np.add.reduce] of a contiguous one-dimensional array, or of each row of
    a two-dimensional one ([axis=1]); also [a.sum()]. *)
Definition add_reduce (a : list float) : float :=
  neg_zero + pairwise_sum (length a) a.

(** The number of items, as the float NumPy divides by (array lengths are
    below [2^63]). *)
Definition float_of_nat (n : nat) : float :=
  PrimFloat.of_uint63 (Uint63.of_Z (Z.of_nat n)).

(** *** Variance: [np.var] with the default [ddof=0]

    [_var] computes the mean as a sum divided by the count, subtracts it,
    squares, sums again and divides by the count. *)
Definition var_with (sum : list float -> float) (a : list float) : float :=
  let rcount := float_of_nat (length a) in
  let arrmean := sum a / rcount in
  let x := map (fun v => v - arrmean) a in
  let x := map (fun d => d * d) x in
  sum x / rcount.

(** [np.var(a)] for a one-dimensional [a]. *)
Definition np_var (a : list float) : float := var_with add_reduce a.

(** [np.var(X, axis=0)] for [X] of shape [T, k]. *)
Definition np_var_axis0 (k : nat) (X : list (list float)) : list float :=
  map (fun c => var_with add_reduce_axis0 (column c X)) (seq 0 k).

(** [X - Y] on arrays of shape [T, k]. *)
Definition np_sub (X Y : list (list float)) : list (list float) :=
  zip_with (zip_with PrimFloat.sub) X Y.

(** [np.linalg.norm(X, axis=1)]: [sqrt(add.reduce(x * x, axis=1))]. *)
Definition norm_axis1 (X : list (list float)) : list float :=
  map (fun r => PrimFloat.sqrt (add_reduce (map (fun x => x * x) r))) X.

(** [np.diff(X, axis=0)]: row [t+1] minus row [t]. *)
Definition np_diff (X : list (list float)) : list (list float) :=
  match X with
  | [] => []
  | _ :: later => np_sub later X
  end.

(** [b - c] and [b + c] for a scalar [c]; [a > b] and [a < b] elementwise;
    [np.all]. *)
Definition sub_scalar (b : list float) (c : float) : list float :=
  map (fun y => y - c) b.
Definition add_scalar (b : list float) (c : float) : list float :=
  map (fun y => y + c) b.
Definition np_gt (a b : list float) : list bool :=
  zip_with (fun x y => y <? x) a b.
Definition np_lt (a b : list float) : list bool :=
  zip_with (fun x y => x <? y) a b.
Definition np_all (l : list bool) : bool := forallb (fun v => v) l.

(** ** [detect_weights] *)

(** The quantities computed on lines 16-62. *)
Record signals : Type := mk_signals {
  wrist_l_var : float;
  wrist_r_var : float;
  dist_l_var : float;
  dist_r_var : float;
  vel_l_var : float;
  vel_r_var : float;
  y_range_ok : bool
}.

Definition detect_signals (wrist_history_xy : list frame) : result signals :=
  W <- np_stack wrist_history_xy ;;
  wrist_l_pos <- joint 0 W ;;
  wrist_r_pos <- joint 1 W ;;
  _ <- require_float W ;;
  let wrist_l_var := add_reduce (np_var_axis0 (dim2 W) wrist_l_pos) in
  let wrist_r_var := add_reduce (np_var_axis0 (dim2 W) wrist_r_pos) in
  shoulder_l <- joint 2 W ;;
  shoulder_r <- joint 3 W ;;
  let dist_l := norm_axis1 (np_sub wrist_l_pos shoulder_l) in
  let dist_r := norm_axis1 (np_sub wrist_r_pos shoulder_r) in
  let dist_l_var := np_var dist_l in
  let dist_r_var := np_var dist_r in
  let vel_l := np_diff wrist_l_pos in
  let vel_r := np_diff wrist_r_pos in
  let vel_l_mag := norm_axis1 vel_l in
  let vel_r_mag := norm_axis1 vel_r in
  let vel_l_var := np_var vel_l_mag in
  let vel_r_var := np_var vel_r_mag in
  wrist_l_y <- take_column 1 W wrist_l_pos ;;
  wrist_r_y <- take_column 1 W wrist_r_pos ;;
  shoulder_l_y <- take_column 1 W shoulder_l ;;
  shoulder_r_y <- take_column 1 W shoulder_r ;;
  let y_range_ok :=
    np_all (np_gt wrist_l_y (sub_scalar shoulder_l_y 0.3)) &&
    np_all (np_lt wrist_l_y (add_scalar shoulder_l_y 0.4)) &&
    np_all (np_gt wrist_r_y (sub_scalar shoulder_r_y 0.3)) &&
    np_all (np_lt wrist_r_y (add_scalar shoulder_r_y 0.4)) in
  Ok (mk_signals wrist_l_var wrist_r_var dist_l_var dist_r_var
                 vel_l_var vel_r_var y_range_ok).

(** Lines 66-85: the combined criterion. *)
Definition weights_detected (s : signals) : bool :=
  let pos_stable :=
    (wrist_l_var s <? 0.01) && (wrist_r_var s <? 0.01) in
  let dist_stable :=
    (dist_l_var s <? 0.015) && (dist_r_var s <? 0.015) in
  let motion_smooth :=
    (vel_l_var s <? 0.008) && (vel_r_var s <? 0.008) in
  let position_reasonable := y_range_ok s in
  pos_stable && dist_stable && motion_smooth && position_reasonable.

(** The body of the [try] block. *)
Definition detect_try (wrist_history_xy : list frame) : result bool :=
  s <- detect_signals wrist_history_xy ;;
  Ok (weights_detected s).

(** The whole function: the guard of line 12 stands before the [try]; the
    handler prints one debug line and returns [False]. *)
Definition detect_weights (wrist_history_xy : pyobj) (out : console)
  : result bool * console :=
  match wrist_history_xy with
  | PyNone => (Ok false, out)
  | PyFloat _ => (Raise TypeError, out)
  | PySeq items =>
      if Nat.ltb (length items) 20
      then (Ok false, out)
      else
        match detect_try items with
        | Ok b => (Ok b, out)
        | Raise e => (Ok false, out ++ [e])
        end
  end.

(** ** Well-formed histories

    A well-formed frame is a 4x2 array of floats: left wrist, right wrist,
    left shoulder, right shoulder, each an [(x, y)] pair. *)

Record joints : Type := mk_joints {
  lw : float * float;
  rw : float * float;
  ls : float * float;
  rs : float * float
}.

Definition pt (p : float * float) : point := [Num (fst p); Num (snd p)].

Definition frame_of (j : joints) : frame :=
  [pt (lw j); pt (rw j); pt (ls j); pt (rs j)].

Definition history_of (js : list joints) : list frame := map frame_of js.

(** The numeric content of a well-formed frame. *)
Definition raw_pt (p : float * float) : list float := [fst p; snd p].

Definition raw (j : joints) : list (list float) :=
  [raw_pt (lw j); raw_pt (rw j); raw_pt (ls j); raw_pt (rs j)].

(** ** The quantities as the code computes them, series by series *)

Module Computed.

(** Summed per-axis variance of a series of positions. *)
Definition pos_var (ps : list (float * float)) : float :=
  add_reduce [var_with add_reduce_axis0 (map fst ps);
              var_with add_reduce_axis0 (map snd ps)].

Definition distance (p q : float * float) : float :=
  PrimFloat.sqrt
    (add_reduce [(fst p - fst q) * (fst p - fst q);
                 (snd p - snd q) * (snd p - snd q)]).

(** Wrist-to-shoulder distance per frame. *)
Definition dist_l (js : list joints) : list float :=
  map (fun j => distance (lw j) (ls j)) js.

Definition dist_r (js : list joints) : list float :=
  map (fun j => distance (rw j) (rs j)) js.

(** Magnitudes of the displacements between consecutive positions. *)
Fixpoint steps (ps : list (float * float)) : list float :=
  match ps with
  | [] => []
  | p :: later =>
      match later with
      | [] => []
      | q :: _ => distance q p :: steps later
      end
  end.

(** The four comparisons of lines 58-61 on one frame, with the rounded
    bounds [ls.y - 0.3] and [ls.y + 0.4]. *)
Definition in_band (j : joints) : Prop :=
  (snd (ls j) - 0.3 <? snd (lw j)) = true /\
  (snd (lw j) <? snd (ls j) + 0.4) = true /\
  (snd (rs j) - 0.3 <? snd (rw j)) = true /\
  (snd (rw j) <? snd (rs j) + 0.4) = true.

Definition pos_var_l (js : list joints) : float := pos_var (map lw js).
Definition pos_var_r (js : list joints) : float := pos_var (map rw js).
Definition dist_var_l (js : list joints) : float := np_var (dist_l js).
Definition dist_var_r (js : list joints) : float := np_var (dist_r js).
Definition vel_var_l (js : list joints) : float := np_var (steps (map lw js)).
Definition vel_var_r (js : list joints) : float := np_var (steps (map rw js)).

End Computed.

(** ** The quantities of the specification in exact arithmetic

    Finite floats are rational numbers; the population variance of a series
    of them is computed here without rounding, fractions being kept in
    lowest terms. *)

Module Exact.

(** The rational number a finite float stands for. *)
Definition of_float (x : float) : Q :=
  match Prim2SF x with
  | S754_finite s m e =>
      Qmult (inject_Z (if s then Z.neg m else Z.pos m)) (Qpower (2 # 1) e)
  | _ => 0%Q
  end.

Fixpoint total (l : list Q) : Q :=
  match l with
  | [] => 0%Q
  | x :: l' => Qred (x + total l')
  end.

Definition mean (l : list Q) : Q := Qred (total l / inject_Z (Z.of_nat (length l))).

(** Sum of squared deviations from [m]. *)
Fixpoint sq_dev (m : Q) (l : list Q) : Q :=
  match l with
  | [] => 0%Q
  | x :: l' => Qred ((x - m) * (x - m) + sq_dev m l')
  end.

(** Population variance: squared deviations from the mean, divided by the
    number of samples. *)
Definition pvariance (l : list Q) : Q :=
  Qred (sq_dev (mean l) l / inject_Z (Z.of_nat (length l))).

(** Summed per-axis variance of a series of positions. *)
Definition pos_var (ps : list (float * float)) : Q :=
  (pvariance (map (fun p => of_float (fst p)) ps)
   + pvariance (map (fun p => of_float (snd p)) ps))%Q.

(** The vertical band with the decimal bounds 0.3 and 0.4. *)
Definition in_band (j : joints) : Prop :=
  (of_float (snd (ls j)) - (3 # 10) < of_float (snd (lw j)) /\
   of_float (snd (lw j)) < of_float (snd (ls j)) + (4 # 10) /\
   of_float (snd (rs j)) - (3 # 10) < of_float (snd (rw j)) /\
   of_float (snd (rw j)) < of_float (snd (rs j)) + (4 # 10))%Q.

End Exact.

(** ** Views of a well-formed history used in the proofs *)

(** The four comparisons of the vertical range on one frame. *)
Definition band_ok (j : joints) : bool :=
  (snd (ls j) - 0.3 <? snd (lw j)) &&
  (snd (lw j) <? snd (ls j) + 0.4) &&
  (snd (rs j) - 0.3 <? snd (rw j)) &&
  (snd (rw j) <? snd (rs j) + 0.4).

(** The signals of a well-formed history. *)
Definition signals_of (js : list joints) : signals :=
  mk_signals (Computed.pos_var_l js) (Computed.pos_var_r js)
             (Computed.dist_var_l js) (Computed.dist_var_r js)
             (Computed.vel_var_l js) (Computed.vel_var_r js)
             (forallb band_ok js).

(** Sum of squared deviations from the computed mean divided by [count],
    all in float64, with [sum] for the two sums. *)
Definition population_formula (sum : list float -> float) (count : nat)
           (a : list float) : float :=
  let m := sum a / float_of_nat count in
  sum (map (fun v => (v - m) * (v - m)) a) / float_of_nat count.

(** A float that is neither a NaN nor an infinity. *)
Definition finite (x : float) : Prop :=
  match Prim2SF x with
  | S754_nan => False
  | S754_infinity _ => False
  | _ => True
  end.

(** ** Histories the guarded block accepts *)

(** Every frame is an array of floats with [n] rows and [k] columns. *)
Definition uniform (n k : nat) (fs : list frame) : Prop :=
  Forall (fun f =>
            length f = n /\
            Forall (fun p => length p = k /\
                             Forall (fun s => is_num s = true) p) f) fs.

(** A non-empty history of float arrays of one shape, with at least four
    rows and two columns. *)
Definition accepted (fs : list frame) : Prop :=
  fs <> [] /\ exists n k, (4 <= n)%nat /\ (2 <= k)%nat /\ uniform n k fs.

(** ** Transformations of a well-formed frame *)

(** Left and right exchanged. *)
Definition swap_sides (j : joints) : joints :=
  mk_joints (rw j) (lw j) (rs j) (ls j).




(** ** Malformed histories *)

(** Some frame has fewer than four points. *)
Definition few_points (fs : list frame) : Prop :=
  exists f, In f fs /\ (length f < 4)%nat.

(** Some point has fewer than two coordinates. *)
Definition few_coords (fs : list frame) : Prop :=
  exists f p, In f fs /\ In p f /\ (length p < 2)%nat.

(** Some coordinate is not a number. *)
Definition non_numeric (fs : list frame) : Prop :=
  exists f p s, In f fs /\ In p f /\ In (Txt s) p.

Definition malformed (fs : list frame) : Prop :=
  few_points fs \/ few_coords fs \/ non_numeric fs.

(** ** Sample frames *)

(** Wrists a little below the shoulders. *)
Definition still : joints :=
  mk_joints (0.4, 0.5) (0.6, 0.5) (0.4, 0.4) (0.6, 0.4).

(** Left wrist far below the left shoulder. *)
Definition dropped : joints :=
  mk_joints (0.4, 0.9) (0.6, 0.5) (0.4, 0.4) (0.6, 0.4).

(** [still] with the left wrist moved to the given abscissa. *)
Definition at_x (x : float) : joints :=
  mk_joints (x, 0.5) (0.6, 0.5) (0.4, 0.4) (0.6, 0.4).

(** Twenty frames, the left wrist at abscissa 0 in the first ten and at 1 in
    the last ten. *)
Definition swaying : list joints := repeat (at_x 0) 10 ++ repeat (at_x 1) 10.


(** Twenty frames, the left wrist alternating between two abscissas a
    little more than 0.2 apart. *)
Definition wobble : list joints :=
  concat (repeat [at_x 0.4000000000000001; at_x 0.6000000000000001] 10).

(** Twenty frames, the left wrist at abscissa [1e16] in the first ten and
    two units further in the last ten. *)
Definition drift : list joints :=
  repeat (at_x 1e16) 10 ++ repeat (at_x 10000000000000002) 10.

(** The left wrist 0.3 above the left shoulder, as closely as floats allow:
    the float [0.2] is a little more than one fifth. *)
Definition on_edge : joints :=
  mk_joints (0.4, 0.2) (0.6, 0.5) (0.4, 0.5) (0.6, 0.4).

(** The left wrist a little more than 0.4 below the left shoulder: the float
    [-0.3] is a little more than minus three tenths. *)
Definition past_edge : joints :=
  mk_joints (0.4, 0.10000000000000002) (0.6, 0) (0.4, -0.3) (0.6, -0.3).


(** A frame with two points only. *)
Definition two_points : frame := [pt (0.4, 0.5); pt (0.6, 0.5)].

(** A frame of five joints with three coordinates each: the four joints of
    [still] at depth [z], and a fifth point. *)
Definition deep_pt (p : float * float) (z : float) : point :=
  [Num (fst p); Num (snd p); Num z].

Definition deep_frame (z : float) : frame :=
  [deep_pt (lw still) z; deep_pt (rw still) 0; deep_pt (ls still) 0;
   deep_pt (rs still) 0; deep_pt (0.5, 0.2) 0].

(** Twenty such frames, the left wrist at depth 0 in the first ten and at
    depth 1 in the last ten. *)
Definition deep_history : list frame :=
  repeat (deep_frame 0) 10 ++ repeat (deep_frame 1) 10.

(** A 4x2 frame in which one coordinate is a string. *)
Definition text_frame : frame :=
  [pt (0.4, 0.5); [Num 0.6; Txt "n/a"]; pt (0.4, 0.4); pt (0.6, 0.4)].

(** A frame whose rows differ in length. *)
Definition ragged_frame : frame :=
  [pt (0.4, 0.5); [Num 0.6]; pt (0.4, 0.4); pt (0.6, 0.4)].

(** ** The block computes the per-series quantities *)

Lemma zip_with_map {A B C D : Type} (f : B -> C -> D) (g : A -> B)
      (h : A -> C) (l : list A) :
  zip_with f (map g l) (map h l) = map (fun a => f (g a) (h a)) l.
Proof. induction l as [|a l IH]; simpl; [reflexivity | now rewrite IH]. Qed.

Lemma history_shapes (js : list joints) :
  forallb (has_shape (4%nat, 2%nat)) (history_of js) = true.
Proof. induction js as [|j js IH]; simpl; [reflexivity | exact IH]. Qed.

Lemma history_numeric (js : list joints) :
  forallb (forallb (forallb is_num)) (history_of js) = true.
Proof. induction js as [|j js IH]; simpl; [reflexivity | exact IH]. Qed.

Lemma history_data (js : list joints) :
  map (map (map value)) (history_of js) = map raw js.
Proof.
  unfold history_of. rewrite map_map. apply map_ext. intros j. reflexivity.
Qed.

Lemma np_stack_history (js : list joints) :
  js <> [] ->
  np_stack (history_of js) = Ok (mk_ndarray true 4 2 (map raw js)).
Proof.
  destruct js as [|j js]; [congruence | intros _].
  unfold np_stack. change (history_of (j :: js)) with (frame_of j :: history_of js).
  cbv beta iota. change (frame_shape (frame_of j)) with (Some (4%nat, 2%nat)).
  cbv beta iota. rewrite history_shapes.
  change (frame_of j :: history_of js) with (history_of (j :: js)).
  rewrite history_numeric, history_data. reflexivity.
Qed.

(** Steps of a series of positions, as [np.diff] and the norm compute them. *)
Lemma diff_norm_steps (ps : list (float * float)) :
  norm_axis1 (np_diff (map raw_pt ps)) = Computed.steps ps.
Proof.
  destruct ps as [|p ps]; [reflexivity|].
  cbn [map np_diff]. revert p.
  induction ps as [|q ps IH]; intros p; [reflexivity|].
  specialize (IH q).
  cbn [map] in *. cbn [Computed.steps].
  unfold np_sub in *. cbn [zip_with].
  unfold norm_axis1 in *. cbn [map].
  f_equal.
  destruct ps as [|r ps]; [reflexivity | exact IH].
Qed.

Lemma forallb_and {A : Type} (f g : A -> bool) (l : list A) :
  forallb f l && forallb g l = forallb (fun a => f a && g a) l.
Proof.
  induction l as [|a l IH]; simpl; [reflexivity|].
  rewrite <- IH.
  destruct (f a), (g a), (forallb f l), (forallb g l); reflexivity.
Qed.

Lemma np_all_map {A : Type} (f : A -> bool) (l : list A) :
  np_all (map f l) = forallb f l.
Proof.
  unfold np_all. induction l as [|a l IH]; simpl; [reflexivity | now rewrite IH].
Qed.

Lemma column_raw (f : joints -> float * float) (js : list joints) :
  column 0 (map (fun j => raw_pt (f j)) js) = map fst (map f js) /\
  column 1 (map (fun j => raw_pt (f j)) js) = map snd (map f js).
Proof. unfold column. rewrite !map_map. split; reflexivity. Qed.

Lemma pos_var_raw (f : joints -> float * float) (js : list joints) :
  add_reduce (np_var_axis0 2 (map (fun j => raw_pt (f j)) js))
  = Computed.pos_var (map f js).
Proof.
  unfold np_var_axis0, Computed.pos_var. cbn [seq map].
  destruct (column_raw f js) as [-> ->]. reflexivity.
Qed.

Lemma dist_raw (w s : joints -> float * float) (js : list joints) :
  norm_axis1 (np_sub (map (fun j => raw_pt (w j)) js)
                     (map (fun j => raw_pt (s j)) js))
  = map (fun j => Computed.distance (w j) (s j)) js.
Proof.
  unfold np_sub, norm_axis1. rewrite zip_with_map, map_map.
  apply map_ext. intros j. reflexivity.
Qed.

Lemma band_raw (js : list joints) :
  np_all (np_gt (map snd (map lw js)) (sub_scalar (map snd (map ls js)) 0.3)) &&
  np_all (np_lt (map snd (map lw js)) (add_scalar (map snd (map ls js)) 0.4)) &&
  np_all (np_gt (map snd (map rw js)) (sub_scalar (map snd (map rs js)) 0.3)) &&
  np_all (np_lt (map snd (map rw js)) (add_scalar (map snd (map rs js)) 0.4))
  = forallb band_ok js.
Proof.
  unfold np_gt, np_lt, sub_scalar, add_scalar.
  rewrite !map_map, !zip_with_map, !np_all_map, !forallb_and.
  reflexivity.
Qed.

(** On a well-formed, non-empty history the block of lines 16-62 raises
    nothing and yields the per-series quantities. *)
Lemma detect_signals_wf (js : list joints) :
  js <> [] -> detect_signals (history_of js) = Ok (signals_of js).
Proof.
  intros Hne. unfold detect_signals.
  rewrite (np_stack_history js Hne).
  cbn [bind joint take_column require_float is_float dim1 dim2 data
       Nat.ltb Nat.leb].
  rewrite !map_map. cbn [raw nth].
  destruct (column_raw lw js) as [_ ->].
  destruct (column_raw rw js) as [_ ->].
  destruct (column_raw ls js) as [_ ->].
  destruct (column_raw rs js) as [_ ->].
  rewrite band_raw, !pos_var_raw, !dist_raw.
  rewrite <- (map_map lw raw_pt), <- (map_map rw raw_pt).
  rewrite !diff_norm_steps.
  reflexivity.
Qed.

Lemma detect_weights_wf (js : list joints) (out : console) :
  (20 <= length js)%nat ->
  detect_weights (PySeq (history_of js)) out
  = (Ok (weights_detected (signals_of js)), out).
Proof.
  intros Hlen. unfold detect_weights, history_of. rewrite length_map.
  destruct (Nat.ltb_spec (length js) 20) as [Hlt | _]; [lia|].
  unfold detect_try. fold (history_of js).
  rewrite detect_signals_wf; [reflexivity|].
  intros ->. simpl in Hlen. lia.
Qed.

(** ** Comparisons and the vertical range *)

Lemma band_ok_true (j : joints) : band_ok j = true <-> Computed.in_band j.
Proof.
  unfold band_ok, Computed.in_band. rewrite !andb_true_iff. tauto.
Qed.

Lemma y_range_ok_true (js : list joints) :
  forallb band_ok js = true <-> Forall Computed.in_band js.
Proof.
  rewrite forallb_forall, Forall_forall.
  split; intros H j Hj; apply band_ok_true, H, Hj.
Qed.

Lemma weights_detected_needs_band (s : signals) :
  y_range_ok s = false -> weights_detected s = false.
Proof. unfold weights_detected. intros ->. apply andb_false_r. Qed.

Lemma weights_detected_needs_pos (s : signals) :
  (wrist_l_var s <? 0.01) = false \/ (wrist_r_var s <? 0.01) = false ->
  weights_detected s = false.
Proof.
  unfold weights_detected. intros [H | H]; rewrite H.
  - reflexivity.
  - rewrite andb_false_r. reflexivity.
Qed.

(** No float is both below and above another. *)
Lemma SFcompare_Lt_Gt (x y : spec_float) :
  SFcompare x y = Some Lt -> SFcompare y x = Some Gt.
Proof.
  destruct x as [sx | sx | | sx mx ex], y as [sy | sy | | sy my ey];
    cbn [SFcompare]; try discriminate;
    try (destruct sx; discriminate || reflexivity);
    try (destruct sy; discriminate || reflexivity);
    try (destruct sx, sy; discriminate || reflexivity).
  change (Pos.compare_cont Eq mx my) with (Pos.compare mx my).
  change (Pos.compare_cont Eq my mx) with (Pos.compare my mx).
  rewrite (Z.compare_antisym ex ey), (Pos.compare_antisym mx my).
  destruct sx, sy; try discriminate; try reflexivity;
    destruct (Z.compare ex ey); cbn [CompOpp]; try discriminate;
    try reflexivity;
    destruct (Pos.compare mx my); cbn [CompOpp]; try discriminate;
    reflexivity.
Qed.

Lemma ltb_asym (a b : float) : (a <? b) = true -> (b <? a) = false.
Proof.
  rewrite !ltb_spec. unfold SFltb.
  destruct (SFcompare (Prim2SF a) (Prim2SF b)) as [[| |]|] eqn:H;
    try discriminate.
  intros _. now rewrite (SFcompare_Lt_Gt _ _ H).
Qed.

Lemma weights_detected_true (js : list joints) :
  weights_detected (signals_of js) = true <->
  (Computed.pos_var_l js <? 0.01) = true /\
  (Computed.pos_var_r js <? 0.01) = true /\
  (Computed.dist_var_l js <? 0.015) = true /\
  (Computed.dist_var_r js <? 0.015) = true /\
  (Computed.vel_var_l js <? 0.008) = true /\
  (Computed.vel_var_r js <? 0.008) = true /\
  Forall Computed.in_band js.
Proof.
  unfold weights_detected, signals_of.
  cbn [wrist_l_var wrist_r_var dist_l_var dist_r_var vel_l_var vel_r_var
       y_range_ok].
  rewrite !andb_true_iff, y_range_ok_true. tauto.
Qed.

(** ** The claims *)

(** C1, as the code has it: on a well-formed history of at least 20 frames
    the call returns a boolean, prints nothing, and that boolean is [true]
    exactly when the float64 values NumPy computes for the summed per-axis
    variance of each wrist, for the variance of each wrist-to-shoulder
    distance and for the variance of each wrist's displacement magnitudes
    are below the floats 0.01, 0.015 and 0.008, and every frame passes the
    four float64 comparisons of the vertical band. *)
Theorem detect_iff_computed_checks (js : list joints) (out : console) :
  (20 <= length js)%nat ->
  exists b : bool,
    detect_weights (PySeq (history_of js)) out = (Ok b, out) /\
    (b = true <->
       (Computed.pos_var_l js <? 0.01) = true /\
       (Computed.pos_var_r js <? 0.01) = true /\
       (Computed.dist_var_l js <? 0.015) = true /\
       (Computed.dist_var_r js <? 0.015) = true /\
       (Computed.vel_var_l js <? 0.008) = true /\
       (Computed.vel_var_r js <? 0.008) = true /\
       Forall Computed.in_band js).
Proof.
  intros Hlen. exists (weights_detected (signals_of js)). split.
  - apply detect_weights_wf, Hlen.
  - apply weights_detected_true.
Qed.

Lemma detect_iff_computed_checks_witness :
  (20 <= length wobble)%nat /\
  exists b : bool,
    detect_weights (PySeq (history_of wobble)) [] = (Ok b, []) /\
    (b = true <->
       (Computed.pos_var_l wobble <? 0.01) = true /\
       (Computed.pos_var_r wobble <? 0.01) = true /\
       (Computed.dist_var_l wobble <? 0.015) = true /\
       (Computed.dist_var_r wobble <? 0.015) = true /\
       (Computed.vel_var_l wobble <? 0.008) = true /\
       (Computed.vel_var_r wobble <? 0.008) = true /\
       Forall Computed.in_band wobble).
Proof.
  assert (Hlen : (20 <= length wobble)%nat) by (vm_compute; lia).
  split; [exact Hlen|].
  exact (detect_iff_computed_checks wobble [] Hlen).
Defined.

(** C1, as stated, fails: on [wobble] the exact summed variance of the left
    wrist's positions is above one hundredth, so one of the checks of the
    claim does not hold, yet the call returns [True]: the variance computed
    in float64 is 0.009999999999999998. *)
Lemma exact_checks_not_decisive :
  (1 # 100 < Exact.pos_var (map lw wobble))%Q /\
  detect_weights (PySeq (history_of wobble)) [] = (Ok true, []).
Proof. split; vm_compute; reflexivity. Qed.

(** C2: [None] and every history shorter than 20 frames give [False] at
    once: whatever the frames hold, nothing is computed on them, so nothing
    can fail and no debug line is printed. *)
Theorem short_history_false (h : pyobj) (out : console) :
  h = PyNone \/ (exists fs, h = PySeq fs /\ (length fs < 20)%nat) ->
  detect_weights h out = (Ok false, out).
Proof.
  intros [-> | [fs [-> Hlen]]]; [reflexivity|].
  unfold detect_weights.
  destruct (Nat.ltb_spec (length fs) 20) as [_ | Hge]; [reflexivity | lia].
Qed.

(** Nineteen frames that would make the guarded block raise: the call
    answers [False] and prints nothing. *)
Lemma short_history_false_witness :
  (PySeq (repeat two_points 19) = PyNone \/
   exists fs, PySeq (repeat two_points 19) = PySeq fs /\ (length fs < 20)%nat) /\
  (exists e, detect_try (repeat two_points 19) = Raise e) /\
  detect_weights (PySeq (repeat two_points 19)) [] = (Ok false, []).
Proof.
  assert (Hs : PySeq (repeat two_points 19) = PyNone \/
               exists fs, PySeq (repeat two_points 19) = PySeq fs /\
                          (length fs < 20)%nat).
  { right. exists (repeat two_points 19). split; [reflexivity | simpl; lia]. }
  split; [exact Hs|].
  split; [exists IndexError; reflexivity|].
  exact (short_history_false (PySeq (repeat two_points 19)) [] Hs).
Defined.

(** *** Failures inside the guarded block *)

Lemma has_shape_inv (sh : nat * nat) (f : frame) :
  has_shape sh f = true ->
  length f = fst sh /\ forall p, In p f -> length p = snd sh.
Proof.
  unfold has_shape, frame_shape. destruct f as [|p0 ps].
  - rewrite andb_true_iff, !Nat.eqb_eq. simpl. intros [H0 _]. split.
    + exact H0.
    + intros p [].
  - destruct (forallb (fun q => Nat.eqb (length q) (length p0)) ps) eqn:Hrect;
      [|discriminate].
    rewrite andb_true_iff, !Nat.eqb_eq. intros [Hn Hk]. split; [exact Hn|].
    intros p [<- | Hp]; [exact Hk|].
    rewrite forallb_forall in Hrect. specialize (Hrect p Hp).
    apply Nat.eqb_eq in Hrect. congruence.
Qed.

Lemma has_shape_self (f : frame) (sh : nat * nat) :
  frame_shape f = Some sh -> has_shape sh f = true.
Proof.
  unfold has_shape. intros ->. destruct sh as [n k]. simpl.
  now rewrite !Nat.eqb_refl.
Qed.

(** What a successful [np.stack] tells about the frames. *)
Lemma np_stack_inv (fs : list frame) (W : ndarray) :
  np_stack fs = Ok W ->
  is_float W = forallb (forallb (forallb is_num)) fs /\
  forall f, In f fs ->
    length f = dim1 W /\ forall p, In p f -> length p = dim2 W.
Proof.
  unfold np_stack. destruct fs as [|f0 rest]; [discriminate|].
  destruct (frame_shape f0) as [sh|] eqn:Hsh; [|discriminate].
  destruct (forallb (has_shape sh) rest) eqn:Hall; [|discriminate].
  intros HW. injection HW as <-. cbn [is_float dim1 dim2]. split; [reflexivity|].
  intros f [<- | Hf].
  - apply has_shape_inv, has_shape_self, Hsh.
  - rewrite forallb_forall in Hall. apply has_shape_inv, Hall, Hf.
Qed.

Lemma non_numeric_not_float (fs : list frame) :
  non_numeric fs -> forallb (forallb (forallb is_num)) fs = false.
Proof.
  intros [f [p [s [Hf [Hp Hs]]]]].
  destruct (forallb (forallb (forallb is_num)) fs) eqn:H; [|reflexivity].
  rewrite forallb_forall in H. specialize (H f Hf).
  rewrite forallb_forall in H. specialize (H p Hp).
  rewrite forallb_forall in H. specialize (H (Txt s) Hs).
  discriminate H.
Qed.

(** A malformed history makes the guarded block raise. *)
Lemma malformed_raises (fs : list frame) :
  malformed fs -> exists e, detect_try fs = Raise e.
Proof.
  intros Hbad. unfold detect_try, detect_signals.
  destruct (np_stack fs) as [W | e] eqn:HW; [|exists e; reflexivity].
  destruct (np_stack_inv fs W HW) as [Hfl Hshape].
  cbn [bind]. unfold joint, take_column, require_float.
  destruct (Nat.ltb_spec 0 (dim1 W)) as [H0 | H0];
    [|exists IndexError; reflexivity].
  destruct (Nat.ltb_spec 1 (dim1 W)) as [H1 | H1];
    [|exists IndexError; reflexivity].
  cbn [bind].
  destruct (is_float W) eqn:Hf; [|exists TypeError; reflexivity].
  cbn [bind].
  destruct (Nat.ltb_spec 2 (dim1 W)) as [H2 | H2];
    [|exists IndexError; reflexivity].
  destruct (Nat.ltb_spec 3 (dim1 W)) as [H3 | H3];
    [|exists IndexError; reflexivity].
  cbn [bind].
  destruct (Nat.ltb_spec 1 (dim2 W)) as [Hk | Hk];
    [|exists IndexError; reflexivity].
  exfalso.
  destruct Hbad as [[f [Hin Hlen]] | [[f [p [Hin [Hp Hlen]]]] | Hnn]].
  - destruct (Hshape f Hin) as [Hn _]. lia.
  - destruct (Hshape f Hin) as [_ Hc]. specialize (Hc p Hp). lia.
  - apply non_numeric_not_float in Hnn. congruence.
Qed.

(** The three kinds of failure on twenty frames: a missing joint, a string
    among the coordinates, rows of different lengths. *)
Example missing_joint_caught :
  detect_weights (PySeq (repeat two_points 20)) [] = (Ok false, [IndexError]).
Proof. reflexivity. Qed.

Example text_coordinate_caught :
  detect_weights (PySeq (repeat text_frame 20)) [] = (Ok false, [TypeError]).
Proof. reflexivity. Qed.

Example ragged_frame_caught :
  detect_weights (PySeq (repeat ragged_frame 20)) [] = (Ok false, [ValueError]).
Proof. reflexivity. Qed.

(** C3, as the code has it: when the argument is [None] or a sized sequence,
    the call always returns a boolean; a failure of the guarded block is
    caught, reported by one debug line, and turned into [False]; malformed
    histories (a frame with fewer than four points, a point with fewer than
    two coordinates, an entry that is not a number) are such failures. *)
Theorem failures_caught (h : pyobj) (out : console) :
  h = PyNone \/ (exists fs, h = PySeq fs) ->
  (exists b out', detect_weights h out = (Ok b, out')) /\
  (forall fs e, h = PySeq fs -> (20 <= length fs)%nat ->
     detect_try fs = Raise e ->
     detect_weights h out = (Ok false, out ++ [e])) /\
  (forall fs, h = PySeq fs -> (20 <= length fs)%nat -> malformed fs ->
     exists e, detect_weights h out = (Ok false, out ++ [e])).
Proof.
  intros Hsized.
  assert (Hcatch : forall fs e, (20 <= length fs)%nat ->
            detect_try fs = Raise e ->
            detect_weights (PySeq fs) out = (Ok false, out ++ [e])).
  { intros fs e Hlen He. unfold detect_weights.
    destruct (Nat.ltb_spec (length fs) 20) as [Hlt | _]; [lia|].
    now rewrite He. }
  split; [|split].
  - destruct Hsized as [-> | [fs ->]].
    + exists false, out. reflexivity.
    + unfold detect_weights. destruct (Nat.ltb (length fs) 20).
      * exists false, out. reflexivity.
      * destruct (detect_try fs) as [b | e].
        -- exists b, out. reflexivity.
        -- exists false, (out ++ [e]). reflexivity.
  - intros fs e -> Hlen He. apply Hcatch; assumption.
  - intros fs -> Hlen Hbad.
    destruct (malformed_raises fs Hbad) as [e He].
    exists e. apply Hcatch; assumption.
Qed.

(** C3, as stated, fails: a number passed as the history has no length, and
    the length test stands before the guarded block, so the [TypeError]
    reaches the caller and nothing is printed. *)
Lemma unsized_argument_escapes :
  detect_weights (PyFloat 5) [] = (Raise TypeError, []) /\
  (forall b out', detect_weights (PyFloat 5) [] <> (Ok b, out')).
Proof. split; [reflexivity | intros b out' H; discriminate H]. Qed.

(** A history of twenty frames of two points each: the third joint is
    missing, the block raises [IndexError], the call prints and answers
    [False]. *)
Lemma failures_caught_witness :
  (PySeq (repeat two_points 20) = PyNone \/
   exists fs, PySeq (repeat two_points 20) = PySeq fs) /\
  detect_weights (PySeq (repeat two_points 20)) [] = (Ok false, [IndexError]).
Proof.
  assert (Hs : PySeq (repeat two_points 20) = PyNone \/
               exists fs, PySeq (repeat two_points 20) = PySeq fs).
  { right. exists (repeat two_points 20). reflexivity. }
  split; [exact Hs|].
  destruct (failures_caught (PySeq (repeat two_points 20)) [] Hs)
    as [_ [Hcatch _]].
  apply (Hcatch (repeat two_points 20) IndexError).
  - reflexivity.
  - simpl. lia.
  - reflexivity.
Defined.

(** *** The vertical band *)

Lemma out_of_band_false (js : list joints) :
  Exists (fun j => ~ Computed.in_band j) js -> forallb band_ok js = false.
Proof.
  intros Hex. apply Exists_exists in Hex. destruct Hex as [j [Hin Hj]].
  destruct (forallb band_ok js) eqn:Hall; [|reflexivity].
  rewrite forallb_forall in Hall. apply Hall, band_ok_true in Hin.
  contradiction.
Qed.

(** C4, as the code has it: on a well-formed history of at least 20 frames,
    one frame that fails any of the four comparisons of lines 58-61, taken
    in float64 with the rounded bounds [ls.y - 0.3] and [ls.y + 0.4], makes
    the call return [False], whatever the variances are; so does a history
    in which every frame has a wrist above the rounded bound
    [shoulder.y + 0.4]. *)
Theorem computed_band_violation_false (js : list joints) (out : console) :
  (20 <= length js)%nat ->
  (Exists (fun j =>
       (snd (ls j) - 0.3 <? snd (lw j)) = false \/
       (snd (lw j) <? snd (ls j) + 0.4) = false \/
       (snd (rs j) - 0.3 <? snd (rw j)) = false \/
       (snd (rw j) <? snd (rs j) + 0.4) = false) js ->
   detect_weights (PySeq (history_of js)) out = (Ok false, out)) /\
  (Forall (fun j =>
       (snd (ls j) + 0.4 <? snd (lw j)) = true \/
       (snd (rs j) + 0.4 <? snd (rw j)) = true) js ->
   detect_weights (PySeq (history_of js)) out = (Ok false, out)).
Proof.
  intros Hlen.
  assert (Hone : Exists (fun j => ~ Computed.in_band j) js ->
                 detect_weights (PySeq (history_of js)) out = (Ok false, out)).
  { intros Hex. rewrite detect_weights_wf by exact Hlen.
    rewrite weights_detected_needs_band; [reflexivity|].
    apply out_of_band_false, Hex. }
  split.
  - intros Hex. apply Hone. revert Hex. apply Exists_impl.
    intros j Hj [A [B [C D]]].
    destruct Hj as [H | [H | [H | H]]]; congruence.
  - intros Hall. apply Hone.
    destruct js as [|j js]; [simpl in Hlen; lia|].
    apply Exists_cons_hd. inversion Hall as [|? ? Hj _]; subst.
    intros [A [B [C D]]].
    destruct Hj as [H | H]; apply ltb_asym in H; congruence.
Qed.

(** Twenty copies of a frame whose left wrist is 0.5 below the shoulder: the
    answer is [False]. *)
Lemma computed_band_violation_false_witness :
  (20 <= length (repeat dropped 20))%nat /\
  detect_weights (PySeq (history_of (repeat dropped 20))) [] = (Ok false, []).
Proof.
  assert (Hlen : (20 <= length (repeat dropped 20))%nat) by (simpl; lia).
  split; [exact Hlen|].
  apply (proj2 (computed_band_violation_false (repeat dropped 20) [] Hlen)).
  apply Forall_forall. intros j Hj. apply repeat_spec in Hj. subst j.
  left. reflexivity.
Defined.

(** C4, as stated, fails: in every frame of twenty copies of [past_edge]
    the left wrist is more than 0.4 below the left shoulder in exact
    arithmetic, yet the call returns [True]: in float64 the bound
    [-0.3 + 0.4] is 0.10000000000000003, above the wrist. *)
Lemma exact_band_not_decisive :
  (Exact.of_float (snd (ls past_edge)) + (4 # 10)
   < Exact.of_float (snd (lw past_edge)))%Q /\
  detect_weights (PySeq (history_of (repeat past_edge 20))) [] = (Ok true, []).
Proof. split; vm_compute; reflexivity. Qed.

(** *** Constant histories *)

Lemma sub_self (x : float) : finite x -> x - x = 0.
Proof.
  unfold finite. intros Hfin. apply Prim2SF_inj. rewrite sub_spec.
  change (Prim2SF 0) with (S754_zero false).
  destruct (Prim2SF x) as [s | s | | s m e]; try contradiction.
  - destruct s; reflexivity.
  - unfold SF64sub, SFsub. rewrite Z.sub_diag. reflexivity.
Qed.

Lemma distance_self (p : float * float) :
  finite (fst p) -> finite (snd p) -> Computed.distance p p = 0.
Proof.
  intros Hx Hy. unfold Computed.distance.
  rewrite (sub_self _ Hx), (sub_self _ Hy). reflexivity.
Qed.

Lemma steps_repeat (p : float * float) (n : nat) :
  Computed.steps (repeat p n) = repeat (Computed.distance p p) (n - 1).
Proof.
  induction n as [|n IH]; [reflexivity|].
  destruct n as [|n]; [reflexivity|].
  change (Computed.steps (repeat p (S (S n))))
    with (Computed.distance p p :: Computed.steps (repeat p (S n))).
  rewrite IH. simpl. now rewrite Nat.sub_0_r.
Qed.

Lemma still_steps_var (p : float * float) :
  finite (fst p) -> finite (snd p) ->
  np_var (Computed.steps (repeat p 20)) = 0.
Proof.
  intros Hx Hy. rewrite steps_repeat, (distance_self p Hx Hy).
  vm_compute. reflexivity.
Qed.

(** C5, as the code has it: for twenty identical well-formed frames whose
    wrist coordinates are finite and which pass the four float64 band
    comparisons, the two velocity variances are exactly 0 and the call
    returns [True] exactly when the float64 position and distance variances
    of the constant series are below 0.01 and 0.015; rounding can make these
    variances differ from 0. *)
Theorem identical_frames_computed (j : joints) (out : console) :
  finite (fst (lw j)) -> finite (snd (lw j)) ->
  finite (fst (rw j)) -> finite (snd (rw j)) ->
  Computed.in_band j ->
  Computed.vel_var_l (repeat j 20) = 0 /\
  Computed.vel_var_r (repeat j 20) = 0 /\
  exists b : bool,
    detect_weights (PySeq (history_of (repeat j 20))) out = (Ok b, out) /\
    (b = true <->
       (Computed.pos_var_l (repeat j 20) <? 0.01) = true /\
       (Computed.pos_var_r (repeat j 20) <? 0.01) = true /\
       (Computed.dist_var_l (repeat j 20) <? 0.015) = true /\
       (Computed.dist_var_r (repeat j 20) <? 0.015) = true).
Proof.
  intros Hlx Hly Hrx Hry Hband.
  assert (Hvl : Computed.vel_var_l (repeat j 20) = 0).
  { unfold Computed.vel_var_l. rewrite map_repeat.
    apply still_steps_var; assumption. }
  assert (Hvr : Computed.vel_var_r (repeat j 20) = 0).
  { unfold Computed.vel_var_r. rewrite map_repeat.
    apply still_steps_var; assumption. }
  split; [exact Hvl | split; [exact Hvr|]].
  exists (weights_detected (signals_of (repeat j 20))). split.
  - apply detect_weights_wf. rewrite repeat_length. lia.
  - rewrite weights_detected_true, Hvl, Hvr.
    assert (Hall : Forall Computed.in_band (repeat j 20)).
    { apply Forall_forall. intros k Hk. apply repeat_spec in Hk. now subst k. }
    assert (H8 : (0 <? 0.008) = true) by reflexivity.
    tauto.
Qed.

Lemma still_finite :
  finite (fst (lw still)) /\ finite (snd (lw still)) /\
  finite (fst (rw still)) /\ finite (snd (rw still)).
Proof. vm_compute. repeat split. Qed.

Lemma still_in_band : Computed.in_band still.
Proof. vm_compute. repeat split. Qed.

Lemma identical_frames_computed_witness :
  Computed.in_band still /\
  Computed.vel_var_l (repeat still 20) = 0 /\
  exists b : bool,
    detect_weights (PySeq (history_of (repeat still 20))) [] = (Ok b, []).
Proof.
  split; [exact still_in_band|].
  destruct still_finite as [H1 [H2 [H3 H4]]].
  destruct (identical_frames_computed still [] H1 H2 H3 H4 still_in_band)
    as [Hv [_ [b [Hb _]]]].
  split; [exact Hv|]. exists b. exact Hb.
Defined.

(** C5, as stated, fails.  Twenty copies of [on_edge] lie strictly inside
    the band in exact arithmetic, yet the call returns [False]: in float64
    [0.5 - 0.3] is the float [0.2], which the wrist does not exceed.  And on
    twenty copies of [still], where the call returns [True], the position
    variance of the left wrist is not 0 but [2^-108]. *)
Lemma identical_frames_not_as_stated :
  Exact.in_band on_edge /\
  detect_weights (PySeq (history_of (repeat on_edge 20))) [] = (Ok false, []) /\
  Exact.in_band still /\
  detect_weights (PySeq (history_of (repeat still 20))) [] = (Ok true, []) /\
  Computed.pos_var_l (repeat still 20) = 0x1p-108.
Proof.
  split; [vm_compute; repeat split|].
  split; [vm_compute; reflexivity|].
  split; [vm_compute; repeat split|].
  split; vm_compute; reflexivity.
Qed.

(** *** The variance formula *)

Lemma steps_length (ps : list (float * float)) :
  length (Computed.steps ps) = (length ps - 1)%nat.
Proof.
  induction ps as [|p ps IH]; [reflexivity|].
  destruct ps as [|q ps]; [reflexivity|].
  change (Computed.steps (p :: q :: ps))
    with (Computed.distance q p :: Computed.steps (q :: ps)).
  cbn [length] in *. rewrite IH. lia.
Qed.

Lemma var_with_formula (sum : list float -> float) (a : list float) :
  var_with sum a = population_formula sum (length a) a.
Proof. unfold var_with, population_formula. now rewrite map_map. Qed.

(** C6, as the code has it: on a well-formed history of [T >= 20] frames
    every variance is the population formula evaluated in float64: the mean
    is a rounded sum divided by the count, and the variance is the rounded
    sum of the rounded squared deviations from that mean divided by the same
    count, [T] for each coordinate series and each distance series, [T - 1]
    for the [T - 1] displacement magnitudes; the count minus one is never
    the divisor. *)
Theorem variances_use_population_formula (js : list joints) :
  (20 <= length js)%nat ->
  exists s : signals,
    detect_signals (history_of js) = Ok s /\
    wrist_l_var s
    = add_reduce
        [population_formula add_reduce_axis0 (length js) (map fst (map lw js));
         population_formula add_reduce_axis0 (length js) (map snd (map lw js))] /\
    wrist_r_var s
    = add_reduce
        [population_formula add_reduce_axis0 (length js) (map fst (map rw js));
         population_formula add_reduce_axis0 (length js) (map snd (map rw js))] /\
    dist_l_var s
    = population_formula add_reduce (length js) (Computed.dist_l js) /\
    dist_r_var s
    = population_formula add_reduce (length js) (Computed.dist_r js) /\
    vel_l_var s
    = population_formula add_reduce (length js - 1)
        (Computed.steps (map lw js)) /\
    vel_r_var s
    = population_formula add_reduce (length js - 1)
        (Computed.steps (map rw js)).
Proof.
  intros Hlen. exists (signals_of js). split.
  - apply detect_signals_wf. intros ->. simpl in Hlen. lia.
  - unfold signals_of, Computed.pos_var_l, Computed.pos_var_r,
      Computed.dist_var_l, Computed.dist_var_r, Computed.vel_var_l,
      Computed.vel_var_r, Computed.pos_var, np_var, Computed.dist_l,
      Computed.dist_r.
    cbn [wrist_l_var wrist_r_var dist_l_var dist_r_var vel_l_var vel_r_var].
    rewrite !var_with_formula, !steps_length, !length_map.
    repeat split; reflexivity.
Qed.

Lemma variances_use_population_formula_witness :
  (20 <= length drift)%nat /\
  exists s : signals,
    detect_signals (history_of drift) = Ok s /\
    vel_l_var s
    = population_formula add_reduce (length drift - 1)
        (Computed.steps (map lw drift)).
Proof.
  assert (Hlen : (20 <= length drift)%nat) by (vm_compute; lia).
  split; [exact Hlen|].
  destruct (variances_use_population_formula drift Hlen)
    as [s [Hs [_ [_ [_ [_ [Hv _]]]]]]].
  exists s. split; [exact Hs | exact Hv].
Defined.

(** C6, as stated, fails: on [drift] the exact population variance of the
    left wrist's positions is 1, and the code computes 2: the rounded mean
    is off by one. *)
Lemma computed_variance_not_exact :
  (Exact.pos_var (map lw drift) == 1)%Q /\
  exists s : signals,
    detect_signals (history_of drift) = Ok s /\ wrist_l_var s = 2.
Proof.
  split; [vm_compute; reflexivity|].
  exists (signals_of drift). split.
  - apply detect_signals_wf. discriminate.
  - vm_compute. reflexivity.
Qed.

(** With two samples 0 and 2 the variance is 1, where dividing by the count
    minus one would give 2. *)
Example np_var_two_samples :
  np_var [0; 2] = 1 /\ var_with add_reduce_axis0 [0; 2] = 1.
Proof. split; vm_compute; reflexivity. Qed.

(** *** The position threshold *)

(** C7, as the code has it: on a well-formed history of at least 20 frames,
    when the summed per-axis position variance of either wrist, as computed
    in float64, is not below the float 0.01, the call returns [False]
    whatever the other signals are. *)
Theorem computed_position_variance_false (js : list joints) (out : console) :
  (20 <= length js)%nat ->
  (Computed.pos_var_l js <? 0.01) = false \/
  (Computed.pos_var_r js <? 0.01) = false ->
  detect_weights (PySeq (history_of js)) out = (Ok false, out).
Proof.
  intros Hlen Hvar. rewrite detect_weights_wf by exact Hlen.
  rewrite weights_detected_needs_pos; [reflexivity | exact Hvar].
Qed.

Lemma computed_position_variance_false_witness :
  (20 <= length swaying)%nat /\
  (Computed.pos_var_l swaying <? 0.01) = false /\
  detect_weights (PySeq (history_of swaying)) [] = (Ok false, []).
Proof.
  assert (Hlen : (20 <= length swaying)%nat) by (vm_compute; lia).
  assert (Hvar : (Computed.pos_var_l swaying <? 0.01) = false)
    by (vm_compute; reflexivity).
  split; [exact Hlen | split; [exact Hvar|]].
  apply (computed_position_variance_false swaying [] Hlen). left. exact Hvar.
Defined.

(** C7, as stated, fails: on [wobble] the exact population variance of the
    abscissas of the left wrist is above one hundredth, yet the call returns
    [True]. *)
Lemma exact_axis_variance_not_decisive :
  (1 # 100
   < Exact.pvariance (map (fun j => Exact.of_float (fst (lw j))) wobble))%Q /\
  detect_weights (PySeq (history_of wobble)) [] = (Ok true, []).
Proof. split; vm_compute; reflexivity. Qed.

(** *** Exact variance: order and offsets *)














(** *** Offsets *)





Lemma forallb_map_ext {A : Type} (f : A -> bool) (g : A -> A) (l : list A) :
  (forall a, f (g a) = f a) -> forallb f (map g l) = forallb f l.
Proof.
  intros H. induction l as [|a l IH]; [reflexivity|].
  cbn [map forallb]. now rewrite H, IH.
Qed.




(** ** Further properties of [detect_weights] *)

(** *** Which histories the guarded block accepts *)

Lemma uniform_frame_shape (n k : nat) (f : frame) :
  (1 <= n)%nat ->
  length f = n ->
  Forall (fun p => length p = k /\ Forall (fun s => is_num s = true) p) f ->
  frame_shape f = Some (n, k).
Proof.
  intros Hn Hlen Hrows. destruct f as [|p ps]; [simpl in Hlen; lia|].
  unfold frame_shape.
  inversion Hrows as [|? ? [Hp _] Hps]; subst.
  replace (forallb (fun q => Nat.eqb (length q) (length p)) ps) with true.
  - reflexivity.
  - symmetry. apply forallb_forall. intros q Hq.
    rewrite Forall_forall in Hps. destruct (Hps q Hq) as [Hk _].
    apply Nat.eqb_eq. exact Hk.
Qed.

Lemma uniform_numeric (n k : nat) (fs : list frame) :
  uniform n k fs -> forallb (forallb (forallb is_num)) fs = true.
Proof.
  intros Hu. apply forallb_forall. intros f Hf.
  unfold uniform in Hu. rewrite Forall_forall in Hu.
  destruct (Hu f Hf) as [_ Hrows].
  apply forallb_forall. intros p Hp.
  rewrite Forall_forall in Hrows. destruct (Hrows p Hp) as [_ Hnum].
  apply forallb_forall. intros s Hs.
  rewrite Forall_forall in Hnum. apply Hnum, Hs.
Qed.

Lemma np_stack_uniform (n k : nat) (fs : list frame) :
  fs <> [] -> (1 <= n)%nat -> uniform n k fs ->
  np_stack fs = Ok (mk_ndarray true n k (map (map (map value)) fs)).
Proof.
  intros Hne Hn Hu. pose proof (uniform_numeric n k fs Hu) as Hnum.
  destruct fs as [|f rest]; [congruence|].
  unfold np_stack. inversion Hu as [|? ? [Hlen Hrows] Hrest]; subst.
  rewrite (uniform_frame_shape (length f) k f Hn eq_refl Hrows).
  replace (forallb (has_shape (length f, k)) rest) with true.
  - rewrite Hnum. reflexivity.
  - symmetry. apply forallb_forall. intros g Hg.
    rewrite Forall_forall in Hrest. destruct (Hrest g Hg) as [Hgl Hgr].
    apply has_shape_self. apply uniform_frame_shape; assumption.
Qed.

Lemma ltb_true (a b : nat) : (a < b)%nat -> Nat.ltb a b = true.
Proof. intros H. apply Nat.ltb_lt, H. Qed.

(** An accepted history goes through the block without raising. *)
Lemma accepted_runs (fs : list frame) :
  accepted fs -> exists b, detect_try fs = Ok b.
Proof.
  intros [Hne [n [k [Hn [Hk Hu]]]]].
  unfold detect_try, detect_signals.
  rewrite (np_stack_uniform n k fs Hne) by (assumption || lia).
  unfold joint, take_column, require_float. cbn [bind dim1 dim2 is_float data].
  rewrite !(ltb_true _ n) by lia. cbn [bind].
  rewrite !(ltb_true _ k) by lia. cbn [bind].
  eexists. reflexivity.
Qed.

Lemma numeric_inv (fs : list frame) :
  forallb (forallb (forallb is_num)) fs = true ->
  forall f, In f fs -> forall p, In p f ->
  Forall (fun s => is_num s = true) p.
Proof.
  intros H f Hf p Hp. rewrite forallb_forall in H. specialize (H f Hf).
  rewrite forallb_forall in H. specialize (H p Hp).
  rewrite forallb_forall in H. apply Forall_forall. exact H.
Qed.

(** Conversely, a history on which the block raises nothing is accepted. *)
Lemma runs_accepted (fs : list frame) (b : bool) :
  detect_try fs = Ok b -> accepted fs.
Proof.
  unfold detect_try, detect_signals.
  destruct (np_stack fs) as [W | e] eqn:HW; [|discriminate].
  destruct (np_stack_inv fs W HW) as [Hfl Hshape].
  cbn [bind]. unfold joint, take_column, require_float.
  destruct (Nat.ltb_spec 0 (dim1 W)) as [H0 | H0]; [|discriminate].
  destruct (Nat.ltb_spec 1 (dim1 W)) as [H1 | H1]; [|discriminate].
  cbn [bind].
  destruct (is_float W) eqn:Hf; [|discriminate].
  cbn [bind].
  destruct (Nat.ltb_spec 2 (dim1 W)) as [H2 | H2]; [|discriminate].
  destruct (Nat.ltb_spec 3 (dim1 W)) as [H3 | H3]; [|discriminate].
  cbn [bind].
  destruct (Nat.ltb_spec 1 (dim2 W)) as [Hk | Hk]; [|discriminate].
  intros _. split.
  - intros ->. discriminate HW.
  - exists (dim1 W), (dim2 W). split; [lia | split; [lia|]].
    apply Forall_forall. intros f Hin.
    destruct (Hshape f Hin) as [Hn Hc]. split; [exact Hn|].
    apply Forall_forall. intros p Hp. split; [apply Hc, Hp|].
    symmetry in Hfl. apply (numeric_inv fs Hfl f Hin p Hp).
Qed.

Lemma snoc_differs {A : Type} (l : list A) (a : A) : l ++ [a] <> l.
Proof.
  intros H. apply (f_equal (@length A)) in H.
  rewrite length_app in H. simpl in H. lia.
Qed.

(** X1: on a sequence of at least 20 frames whose entries are floats or
    strings, the call runs silently, that is returns a boolean and prints
    nothing, exactly when the frames are arrays of floats of one shape with
    at least four rows and two columns. *)
Theorem silent_iff_accepted (fs : list frame) (out : console) :
  (20 <= length fs)%nat ->
  ((exists b, detect_weights (PySeq fs) out = (Ok b, out)) <-> accepted fs).
Proof.
  intros Hlen. unfold detect_weights.
  destruct (Nat.ltb_spec (length fs) 20) as [Hlt | _]; [lia|].
  split.
  - intros [b Hb]. destruct (detect_try fs) as [b' | e] eqn:Ht.
    + apply (runs_accepted fs b' Ht).
    + injection Hb as _ Hout. exfalso. apply (snoc_differs out e Hout).
  - intros Hacc. destruct (accepted_runs fs Hacc) as [b Hb].
    exists b. now rewrite Hb.
Qed.

Lemma silent_iff_accepted_witness :
  (20 <= length deep_history)%nat /\
  ((exists b, detect_weights (PySeq deep_history) [] = (Ok b, [])) <->
   accepted deep_history).
Proof.
  assert (Hlen : (20 <= length deep_history)%nat) by (simpl; lia).
  split; [exact Hlen|].
  exact (silent_iff_accepted deep_history [] Hlen).
Defined.

(** X2: the call answers [True] only for a sequence of at least 20 accepted
    frames, and never together with a debug line. *)
Theorem true_needs_accepted (h : pyobj) (out out' : console) :
  detect_weights h out = (Ok true, out') ->
  out' = out /\
  exists fs, h = PySeq fs /\ (20 <= length fs)%nat /\ accepted fs.
Proof.
  destruct h as [| x | fs]; simpl; try discriminate.
  destruct (Nat.ltb_spec (length fs) 20) as [Hlt | Hge]; [discriminate|].
  destruct (detect_try fs) as [b | e] eqn:Ht; [|discriminate].
  intros H. injection H as -> <-. split; [reflexivity|].
  exists fs. split; [reflexivity | split; [exact Hge|]].
  apply (runs_accepted fs true Ht).
Qed.

Lemma true_needs_accepted_witness :
  detect_weights (PySeq (history_of (repeat still 20))) [] = (Ok true, []) /\
  ([] = [] :> console) /\
  exists fs, PySeq (history_of (repeat still 20)) = PySeq fs /\
             (20 <= length fs)%nat /\ accepted fs.
Proof.
  assert (Ht : detect_weights (PySeq (history_of (repeat still 20))) []
               = (Ok true, [])) by (vm_compute; reflexivity).
  split; [exact Ht|].
  exact (true_needs_accepted (PySeq (history_of (repeat still 20))) [] [] Ht).
Defined.

(** *** Joints beyond the fourth *)

Lemma uniform_firstn (n k : nat) (fs : list frame) :
  (4 <= n)%nat -> uniform n k fs -> uniform 4 k (map (firstn 4) fs).
Proof.
  intros Hn Hu. unfold uniform in *. rewrite Forall_forall in *.
  intros g Hg. apply in_map_iff in Hg. destruct Hg as [f [<- Hf]].
  destruct (Hu f Hf) as [Hlen Hrows]. split.
  - rewrite length_firstn. apply Nat.min_l.
    unfold frame, point in *. rewrite Hlen. exact Hn.
  - rewrite Forall_forall in *. intros p Hp.
    apply Hrows. rewrite <- (firstn_skipn 4 f). apply in_or_app. now left.
Qed.

Lemma joint_firstn (j : nat) (fs : list frame) :
  (j < 4)%nat ->
  map (fun f => nth j f []) (map (map (map value)) (map (firstn 4) fs))
  = map (fun f => nth j f []) (map (map (map value)) fs).
Proof.
  intros Hj. rewrite !map_map. apply map_ext. intros f.
  rewrite <- firstn_map, nth_firstn.
  now rewrite (ltb_true j 4 Hj).
Qed.

(** X3: joints listed after the fourth are ignored: on an accepted history
    of at least 20 frames of floats, cutting every frame down to its first
    four joints does not change what the call returns. *)
Theorem extra_joints_ignored (fs : list frame) (out : console) :
  (20 <= length fs)%nat -> accepted fs ->
  detect_weights (PySeq (map (firstn 4) fs)) out
  = detect_weights (PySeq fs) out.
Proof.
  intros Hlen [Hne [n [k [Hn [Hk Hu]]]]].
  assert (Hne' : map (firstn 4) fs <> []).
  { destruct fs; [congruence | discriminate]. }
  unfold detect_weights. rewrite length_map.
  repeat match goal with
         | |- context [Nat.ltb ?a 20] =>
             replace (Nat.ltb a 20) with false
               by (symmetry; apply Nat.ltb_ge; exact Hlen)
         end.
  unfold detect_try, detect_signals.
  rewrite (np_stack_uniform n k fs Hne) by (assumption || lia).
  rewrite (np_stack_uniform 4 k _ Hne')
    by (try lia; apply (uniform_firstn n k fs Hn Hu)).
  unfold joint, take_column, require_float. cbn [bind dim1 dim2 is_float data].
  rewrite !(ltb_true _ n) by lia. rewrite !(ltb_true _ 4) by lia.
  cbn [bind]. rewrite !(ltb_true _ k) by lia. cbn [bind].
  rewrite !joint_firstn by lia. reflexivity.
Qed.

Lemma deep_history_uniform : uniform 5 3 deep_history.
Proof.
  unfold uniform, deep_history. apply Forall_app. split;
    apply Forall_forall; intros f Hf; apply repeat_spec in Hf; subst f;
    (split; [reflexivity|]);
    repeat (apply Forall_cons; [split; [reflexivity|];
                                repeat (apply Forall_cons; [reflexivity|]);
                                apply Forall_nil|]);
    apply Forall_nil.
Qed.

Lemma deep_history_accepted : accepted deep_history.
Proof.
  split; [discriminate|].
  exists 5%nat, 3%nat. split; [lia | split; [lia | exact deep_history_uniform]].
Qed.

Lemma extra_joints_ignored_witness :
  (20 <= length deep_history)%nat /\ accepted deep_history /\
  detect_weights (PySeq (map (firstn 4) deep_history)) []
  = detect_weights (PySeq deep_history) [].
Proof.
  assert (Hlen : (20 <= length deep_history)%nat) by (simpl; lia).
  split; [exact Hlen | split; [exact deep_history_accepted|]].
  exact (extra_joints_ignored deep_history [] Hlen deep_history_accepted).
Defined.

(** *** Exchanging left and right *)

Lemma band_ok_swap (j : joints) : band_ok (swap_sides j) = band_ok j.
Proof.
  unfold band_ok, swap_sides. cbn [lw rw ls rs].
  destruct (snd (ls j) - 0.3 <? snd (lw j)),
    (snd (lw j) <? snd (ls j) + 0.4),
    (snd (rs j) - 0.3 <? snd (rw j)),
    (snd (rw j) <? snd (rs j) + 0.4); reflexivity.
Qed.

Lemma weights_detected_swap (a b c d e f : float) (y : bool) :
  weights_detected (mk_signals b a d c f e y)
  = weights_detected (mk_signals a b c d e f y).
Proof.
  unfold weights_detected.
  cbn [wrist_l_var wrist_r_var dist_l_var dist_r_var vel_l_var vel_r_var
       y_range_ok].
  rewrite (andb_comm (b <? _)), (andb_comm (d <? _)), (andb_comm (f <? _)).
  reflexivity.
Qed.

(** X6: the criterion treats both sides alike: exchanging the left and the
    right joints in every frame of a well-formed history of at least 20
    frames does not change the result. *)
Theorem swap_sides_invariant (js : list joints) (out : console) :
  (20 <= length js)%nat ->
  detect_weights (PySeq (history_of (map swap_sides js))) out
  = detect_weights (PySeq (history_of js)) out.
Proof.
  intros Hlen.
  rewrite !detect_weights_wf by (rewrite ?length_map; exact Hlen).
  unfold signals_of, Computed.pos_var_l, Computed.pos_var_r,
    Computed.dist_var_l, Computed.dist_var_r, Computed.vel_var_l,
    Computed.vel_var_r, Computed.dist_l, Computed.dist_r.
  rewrite !map_map. cbn [swap_sides lw rw ls rs].
  rewrite (forallb_map_ext band_ok swap_sides js band_ok_swap).
  f_equal. f_equal. exact (weights_detected_swap _ _ _ _ _ _ _).
Qed.

Lemma swap_sides_invariant_witness :
  (20 <= length swaying)%nat /\
  detect_weights (PySeq (history_of (map swap_sides swaying))) []
  = detect_weights (PySeq (history_of swaying)) [].
Proof.
  assert (Hlen : (20 <= length swaying)%nat) by (simpl; lia).
  split; [exact Hlen|].
  exact (swap_sides_invariant swaying [] Hlen).
Defined.

(** *** Coordinates that are not numbers *)

Lemma SFcompare_refl (x : spec_float) :
  x <> S754_nan -> SFcompare x x = Some Eq.
Proof.
  destruct x as [s | s | | s m e]; intros H; try congruence.
  - reflexivity.
  - destruct s; reflexivity.
  - cbn [SFcompare]. rewrite Z.compare_refl.
    change (Pos.compare_cont Eq m m) with (Pos.compare m m).
    rewrite Pos.compare_refl. destruct s; reflexivity.
Qed.

Lemma is_nan_spec (x : float) : is_nan x = true -> Prim2SF x = S754_nan.
Proof.
  unfold is_nan. rewrite FloatAxioms.eqb_spec. unfold SFeqb. intros H.
  destruct (Prim2SF x) as [s | s | | s m e] eqn:Hx; [| |reflexivity|];
    rewrite SFcompare_refl in H by discriminate; discriminate H.
Qed.

Lemma ltb_nan_l (x y : float) : Prim2SF x = S754_nan -> (x <? y) = false.
Proof. intros H. rewrite ltb_spec, H. reflexivity. Qed.

Lemma ltb_nan_r (x y : float) : Prim2SF y = S754_nan -> (x <? y) = false.
Proof.
  intros H. rewrite ltb_spec, H. unfold SFltb.
  destruct (Prim2SF x); reflexivity.
Qed.

Lemma add_nan_l (x y : float) :
  Prim2SF x = S754_nan -> Prim2SF (x + y) = S754_nan.
Proof. intros H. rewrite add_spec, H. reflexivity. Qed.

Lemma add_nan_r (x y : float) :
  Prim2SF y = S754_nan -> Prim2SF (x + y) = S754_nan.
Proof.
  intros H. rewrite add_spec, H. unfold SF64add.
  destruct (Prim2SF x); reflexivity.
Qed.

Lemma sub_nan_l (x y : float) :
  Prim2SF x = S754_nan -> Prim2SF (x - y) = S754_nan.
Proof. intros H. rewrite sub_spec, H. reflexivity. Qed.

Lemma sub_nan_r (x y : float) :
  Prim2SF y = S754_nan -> Prim2SF (x - y) = S754_nan.
Proof.
  intros H. rewrite sub_spec, H. unfold SF64sub.
  destruct (Prim2SF x); reflexivity.
Qed.

Lemma mul_nan (x : float) :
  Prim2SF x = S754_nan -> Prim2SF (x * x) = S754_nan.
Proof. intros H. rewrite mul_spec, H. reflexivity. Qed.

Lemma div_nan_l (x y : float) :
  Prim2SF x = S754_nan -> Prim2SF (x / y) = S754_nan.
Proof. intros H. rewrite div_spec, H. reflexivity. Qed.

Lemma fold_add_nan (l : list float) (acc : float) :
  Prim2SF acc = S754_nan ->
  Prim2SF (fold_left PrimFloat.add l acc) = S754_nan.
Proof.
  revert acc. induction l as [|x l IH]; intros acc H; [exact H|].
  cbn [fold_left]. apply IH, add_nan_l, H.
Qed.

Lemma fold_add_has_nan (l : list float) (acc : float) :
  Exists (fun x => Prim2SF x = S754_nan) l ->
  Prim2SF (fold_left PrimFloat.add l acc) = S754_nan.
Proof.
  intros H. revert acc. induction H as [x l Hx | x l _ IH]; intros acc.
  - cbn [fold_left]. apply fold_add_nan, add_nan_r, Hx.
  - cbn [fold_left]. apply IH.
Qed.

(** The variance of a column that holds a NaN is a NaN. *)
Lemma var_axis0_nan (a : list float) :
  Exists (fun x => Prim2SF x = S754_nan) a ->
  Prim2SF (var_with add_reduce_axis0 a) = S754_nan.
Proof.
  intros H. unfold var_with, add_reduce_axis0.
  apply div_nan_l, fold_add_has_nan.
  rewrite map_map.
  set (m := fold_left PrimFloat.add a neg_zero / float_of_nat (length a)).
  assert (Hm : Prim2SF m = S754_nan)
    by (apply div_nan_l, fold_add_has_nan, H).
  destruct a as [|x a]; [inversion H|].
  apply Exists_cons_hd. apply mul_nan, sub_nan_r, Hm.
Qed.

Lemma pos_var_nan (ps : list (float * float)) :
  Exists (fun p => Prim2SF (fst p) = S754_nan \/ Prim2SF (snd p) = S754_nan) ps ->
  (Computed.pos_var ps <? 0.01) = false.
Proof.
  intros H. apply ltb_nan_l. unfold Computed.pos_var.
  set (vx := var_with add_reduce_axis0 (map fst ps)).
  set (vy := var_with add_reduce_axis0 (map snd ps)).
  change (add_reduce [vx; vy]) with (neg_zero + ((neg_zero + vx) + vy)).
  apply add_nan_r.
  assert (Hor : Exists (fun x => Prim2SF x = S754_nan) (map fst ps) \/
                Exists (fun x => Prim2SF x = S754_nan) (map snd ps)).
  { induction H as [p ps [Hp | Hp] | p ps _ [IH | IH]].
    - left. now apply Exists_cons_hd.
    - right. now apply Exists_cons_hd.
    - left. now apply Exists_cons_tl.
    - right. now apply Exists_cons_tl. }
  destruct Hor as [Hx | Hy].
  - apply add_nan_l, add_nan_r. apply var_axis0_nan, Hx.
  - apply add_nan_r. apply var_axis0_nan, Hy.
Qed.

Lemma band_ok_nan (j : joints) :
  Prim2SF (snd (lw j)) = S754_nan \/ Prim2SF (snd (rw j)) = S754_nan \/
  Prim2SF (snd (ls j)) = S754_nan \/ Prim2SF (snd (rs j)) = S754_nan ->
  band_ok j = false.
Proof.
  unfold band_ok. intros [H | [H | [H | H]]].
  - rewrite (ltb_nan_r _ _ H). reflexivity.
  - rewrite (ltb_nan_r (snd (rs j) - 0.3) _ H). apply andb_false_iff.
    left. apply andb_false_r.
  - rewrite (ltb_nan_l (snd (ls j) - 0.3) _ (sub_nan_l _ _ H)). reflexivity.
  - rewrite (ltb_nan_l (snd (rs j) - 0.3) _ (sub_nan_l _ _ H)).
    apply andb_false_iff. left. apply andb_false_r.
Qed.

(** X10: a NaN among the coordinates of a wrist, or as the ordinate of a
    shoulder, in any frame of a well-formed history of at least 20 frames
    makes the call return [False], without any debug line: the variance of
    a series with a NaN is a NaN, and every comparison with a NaN fails. *)
Theorem nan_coordinate_false (js : list joints) (out : console) :
  (20 <= length js)%nat ->
  Exists (fun j =>
            is_nan (fst (lw j)) = true \/ is_nan (snd (lw j)) = true \/
            is_nan (fst (rw j)) = true \/ is_nan (snd (rw j)) = true \/
            is_nan (snd (ls j)) = true \/ is_nan (snd (rs j)) = true) js ->
  detect_weights (PySeq (history_of js)) out = (Ok false, out).
Proof.
  intros Hlen Hex. rewrite detect_weights_wf by exact Hlen.
  apply Exists_exists in Hex. destruct Hex as [j [Hin Hj]].
  f_equal. f_equal.
  destruct Hj as [H | [H | [H | [H | [H | H]]]]]; apply is_nan_spec in H.
  - apply weights_detected_needs_pos. left.
    apply pos_var_nan, Exists_exists. exists (lw j).
    split; [apply in_map, Hin | now left].
  - apply weights_detected_needs_pos. left.
    apply pos_var_nan, Exists_exists. exists (lw j).
    split; [apply in_map, Hin | now right].
  - apply weights_detected_needs_pos. right.
    apply pos_var_nan, Exists_exists. exists (rw j).
    split; [apply in_map, Hin | now left].
  - apply weights_detected_needs_pos. right.
    apply pos_var_nan, Exists_exists. exists (rw j).
    split; [apply in_map, Hin | now right].
  - apply weights_detected_needs_band. cbn [signals_of y_range_ok].
    destruct (forallb band_ok js) eqn:Hall; [|reflexivity].
    rewrite forallb_forall in Hall. specialize (Hall j Hin).
    rewrite band_ok_nan in Hall by tauto. discriminate Hall.
  - apply weights_detected_needs_band. cbn [signals_of y_range_ok].
    destruct (forallb band_ok js) eqn:Hall; [|reflexivity].
    rewrite forallb_forall in Hall. specialize (Hall j Hin).
    rewrite band_ok_nan in Hall by tauto. discriminate Hall.
Qed.

Lemma nan_coordinate_false_witness :
  (20 <= length (at_x nan :: repeat still 19))%nat /\
  detect_weights (PySeq (history_of (at_x nan :: repeat still 19))) []
  = (Ok false, []).
Proof.
  assert (Hlen : (20 <= length (at_x nan :: repeat still 19))%nat)
    by (simpl; lia).
  split; [exact Hlen|].
  apply (nan_coordinate_false (at_x nan :: repeat still 19) [] Hlen).
  apply Exists_cons_hd. left. reflexivity.
Defined.
